(** * The LSP-to-MCP bridge of [poc/main.py]

    A shallow embedding of the bridging process: the path normalizer
    [get_relative_path], the tool registry ([build_mcp], [add_tool]), the
    session-scoped transport loop ([main]) and the process entry point.

    Python strings are [string]s whose characters stand for code points
    below 256; Python integers are [Z]; [None] is [None]. *)

From Stdlib Require Import String Ascii List Bool Arith ZArith Lia.
Import ListNotations.
Open Scope string_scope.

(** ** Python [str] methods used by the program and its library calls *)

Module PyStr.

(** [s.startswith(p)] *)
Fixpoint startswith (p s : string) : bool :=
  match p, s with
  | EmptyString, _ => true
  | String a p', String b s' => Ascii.eqb a b && startswith p' s'
  | String _ _, EmptyString => false
  end.

(** [s.endswith(p)] *)
Definition endswith (p s : string) : bool :=
  (String.length p <=? String.length s)%nat
  && String.eqb (substring (String.length s - String.length p) (String.length p) s) p.

(** [c.isspace()] for a code point below 256. *)
Definition isspace (c : ascii) : bool :=
  let n := nat_of_ascii c in
  (((9 <=? n) && (n <=? 13)) || ((28 <=? n) && (n <=? 32))
   || (n =? 133) || (n =? 160))%nat.

(** [s.lstrip()] *)
Fixpoint lstrip (s : string) : string :=
  match s with
  | String c r => if isspace c then lstrip r else s
  | EmptyString => EmptyString
  end.

Fixpoint spaces (n : nat) : string :=
  match n with
  | O => EmptyString
  | S k => String " " (spaces k)
  end.

(** [s.expandtabs()] with the default tab size 8: [col] is the column
    reached so far, reset by a line feed or a carriage return. *)
Fixpoint expandtabs_from (col : nat) (s : string) : string :=
  match s with
  | EmptyString => EmptyString
  | String c r =>
      if Ascii.eqb c "009" then
        let incr := 8 - col mod 8 in
        spaces incr ++ expandtabs_from (col + incr) r
      else if Ascii.eqb c "010" || Ascii.eqb c "013" then
        String c (expandtabs_from 0 r)
      else String c (expandtabs_from (S col) r)
  end.

Definition expandtabs (s : string) : string := expandtabs_from 0 s.

(** [s.split('\n')]: never empty, [''.split('\n') == ['']]. *)
Fixpoint split_lines (s : string) : list string :=
  match s with
  | EmptyString => [EmptyString]
  | String c r =>
      if Ascii.eqb c "010" then EmptyString :: split_lines r
      else match split_lines r with
           | l :: ls => String c l :: ls
           | [] => [String c EmptyString]
           end
  end.

(** ['\n'.join(lines)] *)
Definition join_lines (lines : list string) : string :=
  String.concat (String "010" EmptyString) lines.

(** [s[n:]] *)
Fixpoint drop (n : nat) (s : string) : string :=
  match n, s with
  | O, _ => s
  | S k, String _ r => drop k r
  | S _, EmptyString => EmptyString
  end.

End PyStr.

(** ** [os.path.join] (posixpath), for one joined component

    [[
    for b in p:
        if b.startswith(sep):            path = b
        elif not path or path.endswith(sep): path += b
        else:                            path += sep + b
    ]] *)

Definition sep : string := "/".

Definition os_path_join (a b : string) : string :=
  if PyStr.startswith sep b then b
  else if String.eqb a "" || PyStr.endswith sep a then a ++ b
  else a ++ sep ++ b.

(** [os.path.isabs] (posixpath): the path starts with the separator. *)
Definition os_path_isabs (s : string) : bool := PyStr.startswith sep s.

(** ** [inspect.cleandoc] and [inspect.getdoc]

    [cleandoc] as the standard library documents it: tabs are expanded,
    all leading white space is removed from the first line, the white
    space that can be removed uniformly from the following lines is
    removed, and empty lines at either end are dropped.  (From CPython
    3.13 on the stripping is [lstrip(' ')]; the two agree unless a line
    starts with white space other than spaces.) *)

Module Inspect.

(** Minimum indentation of the non-blank lines after the first;
    [None] stands for [sys.maxsize] (no such line). *)
Fixpoint margin (lines : list string) : option nat :=
  match lines with
  | [] => None
  | line :: rest =>
      let content := String.length (PyStr.lstrip line) in
      if (content =? 0)%nat then margin rest
      else
        let indent := String.length line - content in
        match margin rest with
        | None => Some indent
        | Some m => Some (Nat.min m indent)
        end
  end.

(** [while lines and not lines[0]: lines.pop(0)] *)
Fixpoint drop_leading_empty (lines : list string) : list string :=
  match lines with
  | EmptyString :: rest => drop_leading_empty rest
  | _ => lines
  end.

(** [while lines and not lines[-1]: lines.pop()] *)
Definition drop_trailing_empty (lines : list string) : list string :=
  rev (drop_leading_empty (rev lines)).

Definition cleandoc (doc : string) : string :=
  let lines := PyStr.split_lines (PyStr.expandtabs doc) in
  let lines :=
    match lines with
    | [] => []
    | first :: rest =>
        PyStr.lstrip first ::
        match margin rest with
        | None => rest
        | Some m => map (PyStr.drop m) rest
        end
    end in
  PyStr.join_lines (drop_leading_empty (drop_trailing_empty lines)).

End Inspect.

(** ** The path normalizer

    The module body binds one global, [cwd = os.getcwd()]; the functions
    that read it take the module's globals.
    [[
    def get_relative_path(file_path: str) -> str:
        return os.path.join(cwd, file_path)
    ]] *)

Record Globals := { cwd : string }.

Definition get_relative_path (g : Globals) (file_path : string) : string :=
  os_path_join (cwd g) file_path.

(** ** Exceptions, results and the state-and-exception monad

    An exception is known by its class name and by [str(e)].  A function
    that mutates an object or the process is a state transformer that
    returns a value or raises; the state is kept when it raises. *)

Record Exception := { exc_type : string; exc_str : string }.

Inductive result (A : Type) : Type :=
| Return (a : A)
| Raise (e : Exception).
Arguments Return {A} a.
Arguments Raise {A} e.

Definition M (S A : Type) : Type := S -> S * result A.

Definition ret {S A} (a : A) : M S A := fun s => (s, Return a).

Definition raise {S A} (e : Exception) : M S A := fun s => (s, Raise e).

Definition bind {S A B} (c : M S A) (k : A -> M S B) : M S B :=
  fun s =>
    match c s with
    | (s', Return a) => k a s'
    | (s', Raise e) => (s', Raise e)
    end.

Definition modify {S} (f : S -> S) : M S unit := fun s => (f s, Return tt).

Definition gets {S A} (f : S -> A) : M S A := fun s => (s, Return (f s)).

(** [try: c except Exception as e: h(e)] *)
Definition try_except {S A} (c : M S A) (h : Exception -> M S A) : M S A :=
  fun s =>
    match c s with
    | (s', Return a) => (s', Return a)
    | (s', Raise e) => h e s'
    end.

(** [try: c finally: f], the shape of a context manager's exit. *)
Definition try_finally {S A} (c : M S A) (f : M S unit) : M S A :=
  fun s =>
    match c s with
    | (s', r) =>
        match f s' with
        | (s'', Return _) => (s'', r)
        | (s'', Raise e) => (s'', Raise e)
        end
    end.

Declare Scope py_scope.
Delimit Scope py_scope with py.
Notation "x <- c ;; k" := (bind c (fun x => k))
  (at level 61, c at next level, right associativity) : py_scope.
Notation "c ;;; k" := (bind c (fun _ => k))
  (at level 61, right associativity) : py_scope.

(** [for x in xs: body(x)] *)
Fixpoint for_each {S A} (xs : list A) (body : A -> M S unit) : M S unit :=
  match xs with
  | [] => ret tt
  | x :: rest => bind (body x) (fun _ => for_each rest body)
  end.

(** ** Query operations and callables

    The five capability calls of the language-server client, each a bound
    method of the [LanguageServer] object.  A callable carries what the
    registry reads from it: [__name__], its documentation ([__doc__], own
    or inherited, [None] when it has none) and the capability it invokes. *)

Inductive Operation : Type :=
| request_document_symbols
| request_definition
| request_references
| request_completions
| request_hover.

(** The attribute name under which the method is defined. *)
Definition method_name (op : Operation) : string :=
  match op with
  | request_document_symbols => "request_document_symbols"
  | request_definition => "request_definition"
  | request_references => "request_references"
  | request_completions => "request_completions"
  | request_hover => "request_hover"
  end.

(** Symbol lookup takes a file path alone, the others a file path and a
    position. *)
Definition takes_position (op : Operation) : bool :=
  match op with
  | request_document_symbols => false
  | _ => true
  end.

Record Callable := {
  fn_name : string;            (* fn.__name__ *)
  fn_doc : option string;      (* fn.__doc__ *)
  fn_op : Operation
}.

(** [inspect.getdoc(fn)]: [None] without documentation, else the
    documentation cleaned up by [cleandoc]. *)
Definition inspect_getdoc (fn : Callable) : option string :=
  match fn_doc fn with
  | None => None
  | Some doc => Some (Inspect.cleandoc doc)
  end.

(** The language-server client object: configured language, root
    directory, and the documentation its methods carry. *)
Record LanguageServer := {
  code_language : string;
  repository_root_path : string;
  method_doc : Operation -> option string
}.

(** [lsp.request_hover] and its siblings. *)
Definition bound_method (lsp : LanguageServer) (op : Operation) : Callable :=
  {| fn_name := method_name op; fn_doc := method_doc lsp op; fn_op := op |}.

(** ** The tool-protocol transport

    The transport library is not part of the repository.  Its object
    keeps the registrations it received, in order; a tool descriptor is
    the triple handed to [mcp.add_tool]. *)

Record MCPTool := {
  tool_name : string;
  tool_description : option string;
  tool_fn : Callable
}.

Record FastMCP := {
  server_name : string;
  tools : list MCPTool
}.

(** [FastMCP(name)] *)
Definition FastMCP_new (name : string) : FastMCP :=
  {| server_name := name; tools := [] |}.

(** Modelled from the spec: the transport's [register(name, description,
    callable)], called as [mcp.add_tool(fn=..., name=..., description=...)];
    it records the registration and reports no failure of its own. *)
Definition FastMCP_add_tool (fn : Callable) (name : string)
    (description : option string) : M FastMCP unit :=
  modify (fun mcp =>
    {| server_name := server_name mcp;
       tools := tools mcp ++
                [{| tool_name := name; tool_description := description; tool_fn := fn |}] |}).

(** ** The tool registry

    [[
    def add_tool(mcp: FastMCP, fn: Callable) -> MCPTool:
        mcp.add_tool(fn=fn, name="lsp_" + fn.__name__, description=inspect.getdoc(fn))
    ]]
    The body has no [return]: the call yields [None]. *)

Definition add_tool (mcp : FastMCP) (fn : Callable)
  : FastMCP * result (option MCPTool) :=
  (FastMCP_add_tool fn ("lsp_" ++ fn_name fn) (inspect_getdoc fn) ;;;
   ret None)%py mcp.

(** The list [fns] of [build_mcp]. *)
Definition fns (lsp : LanguageServer) : list Callable :=
  [ bound_method lsp request_document_symbols;
    bound_method lsp request_definition;
    bound_method lsp request_references;
    bound_method lsp request_completions;
    bound_method lsp request_hover ].

(** The loop [for fn in fns: add_tool(mcp, fn)]. *)
Definition register_all (fs : list Callable) : M FastMCP unit :=
  for_each fs (fun fn => bind (fun mcp => add_tool mcp fn) (fun _ => ret tt)).

(** [[
    def build_mcp(lsp: LanguageServer) -> FastMCP:
        mcp = FastMCP("lsp")
        fns = [...]
        for fn in fns:
            add_tool(mcp, fn)
        return mcp
    ]] *)
Definition build_mcp (lsp : LanguageServer) : result FastMCP :=
  let mcp := FastMCP_new "lsp" in
  match register_all (fns lsp) mcp with
  | (mcp, Return _) => Return mcp
  | (_, Raise e) => Raise e
  end.

(** ** Requests, responses and dispatch

    A request names a tool and carries the arguments of a capability call:
    a file path and, where the operation takes one, a position. *)

Record Args := {
  arg_path : string;
  arg_position : option (Z * Z)
}.

Record Request := {
  req_tool : string;
  req_args : Args
}.

(** The call that reaches the language server. *)
Record LspCall := {
  call_op : Operation;
  call_path : string;
  call_position : option (Z * Z)
}.

Inductive Response : Type :=
| Result (c : LspCall)          (* the structured result of this call *)
| Error (e : Exception).

Definition UnknownToolError (name : string) : Exception :=
  {| exc_type := "UnknownToolError"; exc_str := name |}.
Definition InvalidArgumentsError (name : string) : Exception :=
  {| exc_type := "InvalidArgumentsError"; exc_str := name |}.
Definition SessionClosedError : Exception :=
  {| exc_type := "SessionClosedError"; exc_str := "" |}.

(** Modelled from the spec: a capability call of the language-server
    client, which is not part of the repository.  The arguments must
    have the operation's shape (a missing position is reported as
    [InvalidArgumentsError]), and the session must be open for the call to
    reach the language server (else [SessionClosedError]). *)
Definition call_tool (session_open : bool) (fn : Callable) (a : Args) : Response :=
  let op := fn_op fn in
  match takes_position op, arg_position a with
  | true, None => Error (InvalidArgumentsError (fn_name fn))
  | true, Some pos =>
      if session_open
      then Result {| call_op := op; call_path := arg_path a; call_position := Some pos |}
      else Error SessionClosedError
  | false, _ =>
      if session_open
      then Result {| call_op := op; call_path := arg_path a; call_position := None |}
      else Error SessionClosedError
  end.

Definition find_tool (mcp : FastMCP) (name : string) : option MCPTool :=
  find (fun t => String.eqb (tool_name t) name) (tools mcp).

(** Modelled from the spec: the transport's dispatch of one request.  It
    looks the tool up by name ([UnknownToolError] when absent) and calls
    the callable that was registered under it with the request's
    arguments; the transport knows nothing of this module beyond what was
    registered, so whatever is to happen to an argument on the way has to
    be part of the registered callable. *)
Definition dispatch (session_open : bool) (mcp : FastMCP) (req : Request) : Response :=
  match find_tool mcp (req_tool req) with
  | None => Error (UnknownToolError (req_tool req))
  | Some t => call_tool session_open (tool_fn t) (req_args req)
  end.

(** ** The process: session state and the trace of what it did *)

Inductive Level : Type := INFO | ERROR.

Inductive Event : Type :=
| EvCreate (language root : string)      (* LanguageServer.create *)
| EvLog (lvl : Level) (msg : string)     (* logger.info / logger.error *)
| EvSessionOpen                          (* start_server entered *)
| EvSessionClose                         (* start_server left *)
| EvServeBegin                           (* run_stdio_async starts serving *)
| EvDispatch (req : Request) (resp : Response)
| EvServeEnd.                            (* run_stdio_async stops serving *)

Record Process := {
  globals : Globals;                     (* the module's globals *)
  session_open : bool;
  trace : list Event                     (* oldest first *)
}.

Definition emit (ev : Event) : M Process unit :=
  modify (fun p => {| globals := globals p; session_open := session_open p;
                      trace := trace p ++ [ev] |}).

Definition set_session (b : bool) : M Process unit :=
  modify (fun p => {| globals := globals p; session_open := b; trace := trace p |}).

Definition logger_info (msg : string) : M Process unit := emit (EvLog INFO msg).
Definition logger_error (msg : string) : M Process unit := emit (EvLog ERROR msg).

(** What the surroundings decide in one run: the working directory at
    launch, the documentation of the client's methods, whether creating
    the client or starting the server fails, the requests that arrive on
    standard input, and whether the stream then closes gracefully
    ([None]) or the transport fails. *)
Record World := {
  launch_dir : string;
  docs : Operation -> option string;
  create_error : option Exception;
  start_error : option Exception;
  stdin_requests : list Request;
  transport_error : option Exception
}.

(** [MultilspyConfig.from_dict({"code_language": ...})] *)
Record MultilspyConfig := { config_code_language : string }.

(** Modelled from the spec: [LanguageServer.create(config, logger, root)]
    of the client library, the first half of opening a session; it
    returns the client for that language and root, or raises. *)
Definition LanguageServer_create (w : World) (config : MultilspyConfig)
    (root : string) : M Process LanguageServer :=
  match create_error w with
  | Some e => raise e
  | None =>
      (emit (EvCreate (config_code_language config) root) ;;;
       ret {| code_language := config_code_language config;
              repository_root_path := root;
              method_doc := docs w |})%py
  end.

(** Modelled from the spec: the scoped run of the session,
    [async with lsp.start_server(): body].  Entering starts the server or
    raises; the session is left exactly once, however the body ends. *)
Definition start_server {A} (w : World) (lsp : LanguageServer)
    (body : M Process A) : M Process A :=
  match start_error w with
  | Some e => raise e
  | None =>
      (set_session true ;;; emit EvSessionOpen ;;;
       try_finally body (set_session false ;;; emit EvSessionClose))%py
  end.

(** Modelled from the spec: the transport's blocking entry point,
    [await mcp.run_stdio_async()].  It serves the requests in receipt
    order, each against the session as it then is, until the stream
    closes or the transport fails. *)
Definition serve_one (mcp : FastMCP) (req : Request) : M Process unit :=
  (open <- gets session_open ;;
   emit (EvDispatch req (dispatch open mcp req)))%py.

Definition run_stdio_async (w : World) (mcp : FastMCP) : M Process unit :=
  (emit EvServeBegin ;;;
   for_each (stdin_requests w) (serve_one mcp) ;;;
   emit EvServeEnd ;;;
   match transport_error w with
   | Some e => raise e
   | None => ret tt
   end)%py.

Definition lift_result {S A} (r : result A) : M S A :=
  match r with
  | Return a => ret a
  | Raise e => raise e
  end.

(** ** The program

    [[
    async def main():
        lsp = LanguageServer.create(
            MultilspyConfig.from_dict({"code_language": "python"}),
            MultilspyLogger(), cwd)
        mcp = build_mcp(lsp)
        logger.info("LSP starting...")
        async with lsp.start_server():
            logger.info("LSP started")
            await mcp.run_stdio_async()
    ]] *)
Definition main (w : World) : M Process unit :=
  (g <- gets globals ;;
   lsp <- LanguageServer_create w {| config_code_language := "python" |} (cwd g) ;;
   mcp <- lift_result (build_mcp lsp) ;;
   logger_info "LSP starting..." ;;;
   start_server w lsp
     (logger_info "LSP started" ;;;
      run_stdio_async w mcp))%py.

(** [[
    if __name__ == "__main__":
        try:
            asyncio.run(main())
        except Exception as e:
            logger.error(f"Error: {e}")
            raise e
    ]] *)
Definition dunder_main (w : World) : M Process unit :=
  try_except (main w)
    (fun e => (logger_error ("Error: " ++ exc_str e) ;;; raise e)%py).

(** An exception that leaves the top level ends the interpreter with
    status 1; running off the end of the script with status 0. *)
Definition exit_status {A} (r : result A) : Z :=
  match r with
  | Return _ => 0%Z
  | Raise _ => 1%Z
  end.

(** The process once the module body has run: [cwd = os.getcwd()]. *)
Definition launch (w : World) : Process :=
  {| globals := {| cwd := launch_dir w |}; session_open := false; trace := [] |}.

(** One run of the script: the module body, then the guarded block. *)
Definition run (w : World) : Process * Z :=
  let '(p, r) := dunder_main w (launch w) in
  (p, exit_status r).

(** ** Reading a trace back

    The session and the loop as they stand after a prefix of the trace. *)

Definition step_session (open : bool) (ev : Event) : bool :=
  match ev with
  | EvSessionOpen => true
  | EvSessionClose => false
  | _ => open
  end.

Definition step_serving (serving : bool) (ev : Event) : bool :=
  match ev with
  | EvServeBegin => true
  | EvServeEnd => false
  | _ => serving
  end.

Definition session_after (t : list Event) : bool := fold_left step_session t false.
Definition serving_after (t : list Event) : bool := fold_left step_serving t false.

Definition is_session_closed (resp : Response) : bool :=
  match resp with
  | Error e => String.eqb (exc_type e) "SessionClosedError"
  | Result _ => false
  end.

(** The scoping discipline, event by event: the session is opened and
    closed outside the loop, the loop begins and ends inside the session,
    and a request is dispatched only while both hold and is never answered
    with a closed session. *)
Definition allowed (open serving : bool) (ev : Event) : bool :=
  match ev with
  | EvSessionOpen => negb open && negb serving
  | EvSessionClose => open && negb serving
  | EvServeBegin => open && negb serving
  | EvServeEnd => open && serving
  | EvDispatch _ resp => open && serving && negb (is_session_closed resp)
  | EvCreate _ _ | EvLog _ _ => true
  end.

Fixpoint scoped (open serving : bool) (t : list Event) : bool :=
  match t with
  | [] => true
  | ev :: rest =>
      allowed open serving ev
      && scoped (step_session open ev) (step_serving serving ev) rest
  end.

Definition is_create (ev : Event) : bool :=
  match ev with
  | EvCreate _ _ => true
  | _ => false
  end.

Definition is_dispatch (ev : Event) : bool :=
  match ev with
  | EvDispatch _ _ => true
  | _ => false
  end.

(** The description as the specification words it: the documentation
    text verbatim, the empty string without documentation. *)
Definition spec_description (fn : Callable) : option string :=
  match fn_doc fn with
  | Some doc => Some doc
  | None => Some ""
  end.

(** A client whose methods carry no documentation, and sample worlds. *)
Definition no_docs : Operation -> option string := fun _ => None.

Definition sample_lsp : LanguageServer :=
  {| code_language := "python"; repository_root_path := "/proj"; method_doc := no_docs |}.

Definition hover_request (path : string) : Request :=
  {| req_tool := "lsp_request_hover";
     req_args := {| arg_path := path; arg_position := Some (3, 5)%Z |} |}.

Definition sample_world : World :=
  {| launch_dir := "/proj";
     docs := no_docs;
     create_error := None;
     start_error := None;
     stdin_requests := [hover_request "src/a.py";
                        {| req_tool := "lsp_request_hovr";
                           req_args := {| arg_path := "src/a.py"; arg_position := Some (3, 5)%Z |} |}];
     transport_error := None |}.

Definition unreachable_world : World :=
  {| launch_dir := "/proj";
     docs := no_docs;
     create_error := None;
     start_error := Some {| exc_type := "FileNotFoundError"; exc_str := "pyright" |};
     stdin_requests := [hover_request "src/a.py"];
     transport_error := None |}.

(** ** Derived notions used in the statements *)

(** The descriptor [add_tool] hands to the transport for [fn]. *)
Definition descriptor (fn : Callable) : MCPTool :=
  {| tool_name := "lsp_" ++ fn_name fn;
     tool_description := inspect_getdoc fn;
     tool_fn := fn |}.

(** The five operations in the order of [fns]. *)
Definition operations : list Operation :=
  [request_document_symbols; request_definition; request_references;
   request_completions; request_hover].

(** The transport [build_mcp] leaves behind. *)
Definition built (lsp : LanguageServer) : FastMCP :=
  fst (register_all (fns lsp) (FastMCP_new "lsp")).

(** The client [main] creates. *)
Definition created (w : World) (root : string) : LanguageServer :=
  {| code_language := "python"; repository_root_path := root; method_doc := docs w |}.

Definition proj_globals : Globals := {| cwd := "/proj" |}.

(** The events of serving [reqs] inside an open session. *)
Definition served (mcp : FastMCP) (reqs : list Request) : list Event :=
  map (fun req => EvDispatch req (dispatch true mcp req)) reqs.

(** The record [logger.error(f"Error: {e}")] leaves. *)
Definition error_log (e : Exception) : Event := EvLog ERROR ("Error: " ++ exc_str e).

(** Session startup: creating the client, then starting the server. *)
Definition startup_failure (w : World) : option Exception :=
  match create_error w with
  | Some e => Some e
  | None => start_error w
  end.

(** A text that [cleandoc] leaves alone: one non-empty line without
    tabs, not starting with white space. *)
Fixpoint no_tab_or_newline (s : string) : bool :=
  match s with
  | EmptyString => true
  | String c r =>
      negb (Ascii.eqb c "009") && negb (Ascii.eqb c "010") && no_tab_or_newline r
  end.

Definition one_clean_line (s : string) : bool :=
  match s with
  | EmptyString => false
  | String c _ => negb (PyStr.isspace c) && no_tab_or_newline s
  end.

Definition indented_hover : Callable :=
  {| fn_name := "request_hover"; fn_doc := Some "  Hover information."; fn_op := request_hover |}.

Definition undocumented_hover : Callable :=
  {| fn_name := "request_hover"; fn_doc := None; fn_op := request_hover |}.

(** The request for the tool of [op]. *)
Definition tool_request (op : Operation) (path : string)
    (pos : option (Z * Z)) : Request :=
  {| req_tool := "lsp_" ++ method_name op;
     req_args := {| arg_path := path; arg_position := pos |} |}.

(** ** Further notions for the statements about a run *)

(** The first thing that goes wrong in a run, if anything does. *)
Definition failure (w : World) : option Exception :=
  match startup_failure w with
  | Some e => Some e
  | None => transport_error w
  end.

Definition is_error_log (ev : Event) : bool :=
  match ev with
  | EvLog ERROR _ => true
  | _ => false
  end.

(** A world in which the transport breaks after one request. *)
Definition broken_pipe_world : World :=
  {| launch_dir := "/proj";
     docs := no_docs;
     create_error := None;
     start_error := None;
     stdin_requests := [hover_request "src/a.py"];
     transport_error := Some {| exc_type := "BrokenPipeError"; exc_str := "stdout closed" |} |}.

(** * Properties *)

(** Break a conjunction of boolean tests in hypothesis [H] into its parts. *)
Ltac split_andb H :=
  repeat match type of H with
         | (_ && _)%bool = true =>
             let H1 := fresh H in
             apply andb_true_iff in H; destruct H as [H H1];
             try split_andb H1
         end;
  repeat match goal with
         | X : negb _ = true |- _ => apply negb_true_iff in X
         end.

(** ** The path normalizer *)

Section PathNormalizer.

Variable base : string.

Lemma isabs_inv (s : string) :
  os_path_isabs s = true -> exists r, s = String "/" r.
Proof.
  unfold os_path_isabs, sep.
  destruct s as [|c r]; cbn [PyStr.startswith]; [discriminate|].
  rewrite andb_true_r. intros H. apply Ascii.eqb_eq in H. subst c. eauto.
Qed.

Lemma isabs_app (a b : string) :
  os_path_isabs a = true -> os_path_isabs (a ++ b) = true.
Proof.
  intros H. destruct (isabs_inv a H) as [r ->]. reflexivity.
Qed.

Lemma join_absolute_second (b : string) :
  os_path_isabs b = true -> os_path_join base b = b.
Proof.
  unfold os_path_join, os_path_isabs. intros ->. reflexivity.
Qed.

Lemma join_isabs (b : string) :
  os_path_isabs base = true -> os_path_isabs (os_path_join base b) = true.
Proof.
  intros H. unfold os_path_join.
  destruct (PyStr.startswith sep b) eqn:Hb; [exact Hb|].
  destruct (String.eqb base "" || PyStr.endswith sep base); now apply isabs_app.
Qed.

End PathNormalizer.

Example join_ex1 : get_relative_path proj_globals "src/a.py" = "/proj/src/a.py".
Proof. reflexivity. Qed.

Example join_ex2 : get_relative_path {| cwd := "/proj/" |} "src/a.py" = "/proj/src/a.py".
Proof. reflexivity. Qed.

Example join_ex3 : get_relative_path proj_globals "/etc/x" = "/etc/x".
Proof. reflexivity. Qed.

Example join_relative_base_not_idempotent :
  get_relative_path {| cwd := "proj" |} (get_relative_path {| cwd := "proj" |} "a")
  <> get_relative_path {| cwd := "proj" |} "a".
Proof. vm_compute. discriminate. Qed.

(** C7: with the working directory that [os.getcwd()] yields, an absolute
    path, normalizing twice is the same as normalizing once, for every
    path string. *)
Theorem get_relative_path_idempotent (g : Globals) (p : string) :
  os_path_isabs (cwd g) = true ->
  get_relative_path g (get_relative_path g p) = get_relative_path g p.
Proof.
  intros Hcwd. unfold get_relative_path.
  apply join_absolute_second, join_isabs, Hcwd.
Qed.

Lemma get_relative_path_idempotent_witness :
  os_path_isabs (cwd proj_globals) = true /\
  get_relative_path proj_globals (get_relative_path proj_globals "src/a.py")
  = get_relative_path proj_globals "src/a.py".
Proof.
  split; [reflexivity|].
  apply (get_relative_path_idempotent proj_globals "src/a.py"). reflexivity.
Defined.

(** C9: the normalizer is the identity on an absolute path, whatever the
    working directory: joining onto a base discards the base when the
    second component starts with the separator. *)
Theorem get_relative_path_absolute (g : Globals) (p : string) :
  os_path_isabs p = true -> get_relative_path g p = p.
Proof.
  intros Hp. unfold get_relative_path. now apply join_absolute_second.
Qed.

Lemma get_relative_path_absolute_witness :
  os_path_isabs "/etc/hosts" = true /\
  get_relative_path proj_globals "/etc/hosts" = "/etc/hosts".
Proof.
  split; [reflexivity|].
  apply (get_relative_path_absolute proj_globals "/etc/hosts"). reflexivity.
Defined.

(** ** The tool registry *)

Lemma add_tool_eq (mcp : FastMCP) (fn : Callable) :
  add_tool mcp fn =
  ({| server_name := server_name mcp; tools := tools mcp ++ [descriptor fn] |},
   Return None).
Proof. reflexivity. Qed.

Lemma register_all_eq (fs : list Callable) :
  forall mcp,
    register_all fs mcp =
    ({| server_name := server_name mcp; tools := tools mcp ++ map descriptor fs |},
     Return tt).
Proof.
  induction fs as [|fn fs IH]; intros mcp.
  - cbn. rewrite app_nil_r. destruct mcp; reflexivity.
  - unfold register_all in *. cbn [for_each]. unfold bind at 1 2.
    rewrite add_tool_eq. unfold ret at 1. rewrite IH. cbn [server_name tools map].
    rewrite <- app_assoc. reflexivity.
Qed.

Lemma build_mcp_eq (lsp : LanguageServer) : build_mcp lsp = Return (built lsp).
Proof.
  unfold build_mcp, built. rewrite register_all_eq. reflexivity.
Qed.

Lemma built_tools (lsp : LanguageServer) :
  tools (built lsp) = map descriptor (fns lsp).
Proof. unfold built. rewrite register_all_eq. reflexivity. Qed.

Lemma lsp_name_inj (a b : string) : "lsp_" ++ a = "lsp_" ++ b -> a = b.
Proof. cbn. intros H. now inversion H. Qed.

(** C3: [build_mcp] returns a transport holding exactly one tool per
    operation of the five-element list, in that order; every tool is
    named ["lsp_"] followed by the operation's identifier; the five names
    are pairwise distinct; and the name is a function of the identifier
    alone (the same for every client, and injective in the identifier). *)
Theorem build_mcp_registers_five (lsp : LanguageServer) :
  exists mcp,
    build_mcp lsp = Return mcp /\
    map tool_fn (tools mcp) = fns lsp /\
    map (fun t => fn_op (tool_fn t)) (tools mcp) = operations /\
    map tool_name (tools mcp) = map (fun op => "lsp_" ++ method_name op) operations /\
    (forall t, In t (tools mcp) -> tool_name t = "lsp_" ++ fn_name (tool_fn t)) /\
    NoDup (map tool_name (tools mcp)) /\
    (forall lsp', exists mcp',
        build_mcp lsp' = Return mcp' /\
        map tool_name (tools mcp') = map tool_name (tools mcp)) /\
    (forall f g, tool_name (descriptor f) = tool_name (descriptor g) <-> fn_name f = fn_name g).
Proof.
  exists (built lsp). rewrite build_mcp_eq, built_tools.
  split; [reflexivity|]. split; [reflexivity|]. split; [reflexivity|].
  split; [reflexivity|]. split.
  - intros t Ht. apply in_map_iff in Ht. destruct Ht as [fn [<- _]]. reflexivity.
  - split.
    + cbn. repeat constructor; cbn; intuition discriminate.
    + split.
      * intros lsp'. exists (built lsp'). rewrite build_mcp_eq, built_tools.
        split; reflexivity.
      * intros f g. cbn [descriptor tool_name]. split.
        -- apply lsp_name_inj.
        -- intros ->. reflexivity.
Qed.


(** C6, as the code has it: [build_mcp] makes a transport of its own on
    every call, so each call returns a transport with the five tools, and
    a second call returns an equal one; running the registration loop on
    a transport that already holds registrations returns normally too,
    the new descriptors following the old: nothing in the registry
    rejects a repeated registration. *)
Theorem registration_never_rejected (lsp : LanguageServer) (fs : list Callable)
    (mcp : FastMCP) :
  build_mcp lsp = Return (built lsp) /\
  length (tools (built lsp)) = 5 /\
  snd (register_all fs mcp) = Return tt /\
  tools (fst (register_all fs mcp)) = (tools mcp ++ map descriptor fs)%list /\
  snd (register_all (fns lsp) (built lsp)) = Return tt.
Proof.
  rewrite build_mcp_eq, !register_all_eq, built_tools. repeat split.
Qed.

(** C6 fails as stated: registering the operation set a second time on
    the transport that already holds it returns normally, and leaves the
    five descriptors there twice. *)
Lemma second_registration_returns :
  build_mcp sample_lsp = Return (built sample_lsp) /\
  snd (register_all (fns sample_lsp) (built sample_lsp)) = Return tt /\
  map tool_name (tools (fst (register_all (fns sample_lsp) (built sample_lsp))))
  = (map tool_name (tools (built sample_lsp)) ++ map tool_name (tools (built sample_lsp)))%list.
Proof. repeat split. Qed.

(** ** Descriptions *)

Lemma expandtabs_clean (s : string) :
  no_tab_or_newline s = true -> forall col, PyStr.expandtabs_from col s = s.
Proof.
  induction s as [|c r IH]; intros H col; [reflexivity|].
  cbn [no_tab_or_newline] in H. split_andb H.
  cbn [PyStr.expandtabs_from]. rewrite H.
  destruct (Ascii.eqb c "010" || Ascii.eqb c "013"); now rewrite IH.
Qed.

Lemma split_lines_clean (s : string) :
  no_tab_or_newline s = true -> PyStr.split_lines s = [s].
Proof.
  induction s as [|c r IH]; intros H; [reflexivity|].
  cbn [no_tab_or_newline] in H. split_andb H.
  cbn [PyStr.split_lines]. rewrite H1, IH by assumption. reflexivity.
Qed.

Lemma cleandoc_one_clean_line (doc : string) :
  one_clean_line doc = true -> Inspect.cleandoc doc = doc.
Proof.
  destruct doc as [|c r]; [discriminate|].
  unfold one_clean_line. intros H. split_andb H.
  unfold Inspect.cleandoc, PyStr.expandtabs.
  rewrite (expandtabs_clean _ H0), (split_lines_clean _ H0).
  cbn [PyStr.lstrip Inspect.margin]. rewrite H.
  reflexivity.
Qed.

Example cleandoc_ex1 :
  Inspect.cleandoc
    ("  Hover." ++ String "010" "      more" ++ String "010" "        deep"
     ++ String "010" "    ")
  = "Hover." ++ String "010" "more" ++ String "010" "  deep".
Proof. vm_compute. reflexivity. Qed.

Example cleandoc_ex2 :
  Inspect.cleandoc (String "010" (String "009" "a" ++ String "010" (String "009" " b") ++ String "010" ""))
  = "a" ++ String "010" " b".
Proof. vm_compute. reflexivity. Qed.

(** C5, as the code has it: registering any callable succeeds, and the
    description handed to the transport is [inspect.getdoc] of the
    callable: [None] when it has no documentation, else the documentation
    cleaned up by [inspect.cleandoc], which is the text itself when that
    is one line without tabs that does not start with white space.  The
    same holds of the five tools of [build_mcp]. *)
Theorem description_is_getdoc (mcp : FastMCP) (fn : Callable) :
  snd (add_tool mcp fn) = Return None /\
  map tool_description (tools (fst (add_tool mcp fn)))
  = (map tool_description (tools mcp)
     ++ [match fn_doc fn with
         | None => None
         | Some doc => Some (Inspect.cleandoc doc)
         end])%list /\
  (forall doc, fn_doc fn = Some doc -> one_clean_line doc = true ->
     map tool_description (tools (fst (add_tool mcp fn)))
     = (map tool_description (tools mcp) ++ [Some doc])%list) /\
  (forall lsp t, In t (tools (built lsp)) ->
     tool_description t = inspect_getdoc (tool_fn t)).
Proof.
  rewrite add_tool_eq. cbn [fst snd tools].
  rewrite map_app. cbn [map descriptor tool_description]. unfold inspect_getdoc.
  split; [reflexivity|]. split; [reflexivity|]. split.
  - intros doc -> Hclean. now rewrite cleandoc_one_clean_line.
  - intros lsp t Ht. rewrite built_tools in Ht.
    apply in_map_iff in Ht. destruct Ht as [f [<- _]]. reflexivity.
Qed.

Lemma description_is_getdoc_witness :
  map tool_description
    (tools (fst (add_tool (FastMCP_new "lsp")
                   {| fn_name := "request_hover"; fn_doc := Some "Hover information.";
                      fn_op := request_hover |})))
  = [Some "Hover information."].
Proof.
  apply (proj1 (proj2 (proj2
    (description_is_getdoc (FastMCP_new "lsp")
       {| fn_name := "request_hover"; fn_doc := Some "Hover information.";
          fn_op := request_hover |})))
    "Hover information." eq_refl eq_refl).
Defined.

(** C5 fails as stated: without documentation the description handed
    over is [None], not the empty string, and an indented text is not
    handed over verbatim. *)
Lemma description_not_verbatim :
  map tool_description (tools (fst (add_tool (FastMCP_new "lsp") undocumented_hover)))
  = [None] /\
  spec_description undocumented_hover = Some "" /\
  map tool_description (tools (fst (add_tool (FastMCP_new "lsp") indented_hover)))
  = [Some "Hover information."] /\
  spec_description indented_hover = Some "  Hover information." /\
  tool_description (descriptor undocumented_hover) <> spec_description undocumented_hover /\
  tool_description (descriptor indented_hover) <> spec_description indented_hover.
Proof.
  repeat split; try reflexivity; vm_compute; discriminate.
Qed.

(** ** Dispatch *)

Lemma find_tool_built (lsp : LanguageServer) (op : Operation) :
  find_tool (built lsp) ("lsp_" ++ method_name op)
  = Some (descriptor (bound_method lsp op)).
Proof.
  unfold find_tool. rewrite built_tools. destruct op; reflexivity.
Qed.

Lemma dispatch_built (lsp : LanguageServer) (op : Operation) (open : bool)
    (path : string) (pos : option (Z * Z)) :
  dispatch open (built lsp) (tool_request op path pos)
  = call_tool open (bound_method lsp op) {| arg_path := path; arg_position := pos |}.
Proof.
  unfold dispatch, tool_request. cbn [req_tool req_args].
  rewrite find_tool_built. reflexivity.
Qed.

(** C1, as the code has it: the callable registered for an operation is
    the operation itself, so dispatch hands the path of the request to the
    operation unchanged; the call that reaches the language server for a
    path [p] is the call for [get_relative_path p] when [p] is absolute. *)
Theorem dispatch_forwards_path_unchanged (g : Globals) (lsp : LanguageServer)
    (op : Operation) (path : string) (pos : Z * Z) :
  build_mcp lsp = Return (built lsp) /\
  find_tool (built lsp) ("lsp_" ++ method_name op)
  = Some {| tool_name := "lsp_" ++ method_name op;
            tool_description := inspect_getdoc (bound_method lsp op);
            tool_fn := bound_method lsp op |} /\
  dispatch true (built lsp) (tool_request op path (Some pos))
  = Result {| call_op := op; call_path := path;
              call_position := if takes_position op then Some pos else None |} /\
  (os_path_isabs path = true ->
   dispatch true (built lsp) (tool_request op (get_relative_path g path) (Some pos))
   = dispatch true (built lsp) (tool_request op path (Some pos))).
Proof.
  split; [apply build_mcp_eq|]. split; [apply find_tool_built|]. split.
  - rewrite dispatch_built. destruct op; reflexivity.
  - intros Habs. unfold get_relative_path. now rewrite join_absolute_second.
Qed.

Lemma dispatch_forwards_path_unchanged_witness :
  dispatch true (built sample_lsp)
    (tool_request request_hover (get_relative_path proj_globals "/proj/src/a.py")
       (Some (3, 5)%Z))
  = dispatch true (built sample_lsp)
      (tool_request request_hover "/proj/src/a.py" (Some (3, 5)%Z)).
Proof.
  apply (proj2 (proj2 (proj2
    (dispatch_forwards_path_unchanged proj_globals sample_lsp request_hover
       "/proj/src/a.py" (3, 5)%Z))) eq_refl).
Defined.

(** C1 fails as stated: with the working directory [/proj], the request
    for [lsp_request_hover] on [src/a.py] reaches hover lookup with
    [src/a.py], not with the resolved [/proj/src/a.py], and so differs
    from the call made for the resolved path. *)
Lemma relative_path_not_resolved :
  get_relative_path (globals (launch sample_world)) "src/a.py" = "/proj/src/a.py" /\
  build_mcp sample_lsp = Return (built sample_lsp) /\
  dispatch true (built sample_lsp) (hover_request "src/a.py")
  = Result {| call_op := request_hover; call_path := "src/a.py";
              call_position := Some (3, 5)%Z |} /\
  dispatch true (built sample_lsp) (hover_request (get_relative_path (globals (launch sample_world)) "src/a.py"))
  = Result {| call_op := request_hover; call_path := "/proj/src/a.py";
              call_position := Some (3, 5)%Z |} /\
  dispatch true (built sample_lsp) (hover_request "src/a.py")
  <> dispatch true (built sample_lsp) (hover_request (get_relative_path (globals (launch sample_world)) "src/a.py")) /\
  In (EvDispatch (hover_request "src/a.py")
        (Result {| call_op := request_hover; call_path := "src/a.py";
                   call_position := Some (3, 5)%Z |}))
     (trace (fst (run sample_world))).
Proof.
  repeat split; try reflexivity.
  - vm_compute. discriminate.
  - vm_compute. tauto.
Qed.

(** ** The process *)

Lemma serve_all (mcp : FastMCP) (reqs : list Request) :
  forall p, session_open p = true ->
    for_each reqs (serve_one mcp) p =
    ({| globals := globals p; session_open := true;
        trace := trace p ++ served mcp reqs |}, Return tt).
Proof.
  induction reqs as [|req reqs IH]; intros [g o t] Ho; cbn in Ho; subst o.
  - cbn. now rewrite app_nil_r.
  - cbn [for_each]. unfold bind at 1. unfold serve_one at 1.
    cbv [bind gets emit modify globals session_open trace].
    rewrite IH by reflexivity. cbn [globals trace served map].
    now rewrite <- app_assoc.
Qed.

Lemma main_eq (w : World) (g : Globals) :
  main w {| globals := g; session_open := false; trace := [] |} =
  match create_error w with
  | Some e => ({| globals := g; session_open := false; trace := [] |}, Raise e)
  | None =>
      match start_error w with
      | Some e =>
          ({| globals := g; session_open := false;
              trace := [EvCreate "python" (cwd g); EvLog INFO "LSP starting..."] |},
           Raise e)
      | None =>
          ({| globals := g; session_open := false;
              trace := [EvCreate "python" (cwd g); EvLog INFO "LSP starting...";
                        EvSessionOpen; EvLog INFO "LSP started"; EvServeBegin]
                       ++ served (built (created w (cwd g))) (stdin_requests w)
                       ++ [EvServeEnd; EvSessionClose] |},
           match transport_error w with
           | Some e => Raise e
           | None => Return tt
           end)
      end
  end.
Proof.
  unfold main, LanguageServer_create, start_server, run_stdio_async.
  unfold bind at 1. cbn [gets globals].
  destruct (create_error w) as [e|]; [reflexivity|].
  unfold bind at 1. unfold bind at 1.
  cbn [emit modify globals trace session_open app ret].
  unfold bind at 1. rewrite build_mcp_eq. cbn [lift_result ret].
  destruct (start_error w) as [e|]; [reflexivity|].
  cbn -[built created for_each served].
  unfold bind at 1. unfold try_finally, bind at 1.
  unfold bind at 1. unfold bind at 1.
  cbn -[built created for_each served].
  fold (created w (cwd g)). rewrite serve_all by reflexivity.
  cbn -[built created for_each served].
  destruct (transport_error w) as [e|]; cbn -[built created served];
    rewrite <- app_assoc; reflexivity.
Qed.

(** The whole run in closed form: the trace and the exit status. *)
Lemma run_eq (w : World) :
  run w =
  match create_error w with
  | Some e =>
      ({| globals := {| cwd := launch_dir w |}; session_open := false;
          trace := [error_log e] |}, 1%Z)
  | None =>
      match start_error w with
      | Some e =>
          ({| globals := {| cwd := launch_dir w |}; session_open := false;
              trace := [EvCreate "python" (launch_dir w); EvLog INFO "LSP starting...";
                        error_log e] |}, 1%Z)
      | None =>
          ({| globals := {| cwd := launch_dir w |}; session_open := false;
              trace := [EvCreate "python" (launch_dir w); EvLog INFO "LSP starting...";
                        EvSessionOpen; EvLog INFO "LSP started"; EvServeBegin]
                       ++ served (built (created w (launch_dir w))) (stdin_requests w)
                       ++ [EvServeEnd; EvSessionClose]
                       ++ match transport_error w with
                          | Some e => [error_log e]
                          | None => []
                          end |},
           match transport_error w with
           | Some _ => 1%Z
           | None => 0%Z
           end)
      end
  end.
Proof.
  unfold run, dunder_main, try_except, launch. rewrite main_eq. cbn [cwd].
  destruct (create_error w) as [e|]; [reflexivity|].
  destruct (start_error w) as [e|]; [reflexivity|].
  destruct (transport_error w) as [e|].
  - cbn -[built created served]. unfold error_log.
    rewrite <- !app_assoc. reflexivity.
  - cbn -[built created served]. reflexivity.
Qed.

(** ** Scoping of the loop inside the session *)

Lemma scoped_app (a b : list Event) :
  forall o s,
    scoped o s (a ++ b) =
    scoped o s a && scoped (fold_left step_session a o) (fold_left step_serving a s) b.
Proof.
  induction a as [|ev a IH]; intros o s; cbn [app scoped fold_left].
  - reflexivity.
  - rewrite IH, andb_assoc. reflexivity.
Qed.

Lemma dispatch_open_not_closed (mcp : FastMCP) (req : Request) :
  is_session_closed (dispatch true mcp req) = false.
Proof.
  unfold dispatch. destruct (find_tool mcp (req_tool req)) as [t|]; [|reflexivity].
  unfold call_tool.
  destruct (takes_position (fn_op (tool_fn t))), (arg_position (req_args req));
    reflexivity.
Qed.

Lemma served_scoped (mcp : FastMCP) (reqs : list Request) :
  scoped true true (served mcp reqs) = true.
Proof.
  induction reqs as [|req reqs IH]; [reflexivity|].
  cbn [served map scoped allowed step_session step_serving].
  rewrite dispatch_open_not_closed. exact IH.
Qed.

Lemma served_keeps_session (mcp : FastMCP) (reqs : list Request) (o : bool) :
  fold_left step_session (served mcp reqs) o = o.
Proof. induction reqs as [|req reqs IH]; [reflexivity | exact IH]. Qed.

Lemma served_keeps_serving (mcp : FastMCP) (reqs : list Request) (s : bool) :
  fold_left step_serving (served mcp reqs) s = s.
Proof. induction reqs as [|req reqs IH]; [reflexivity | exact IH]. Qed.

Lemma in_served (mcp : FastMCP) (reqs : list Request) (ev : Event) :
  In ev (served mcp reqs) -> is_dispatch ev = true.
Proof.
  unfold served. intros H. apply in_map_iff in H.
  destruct H as [req [<- _]]. reflexivity.
Qed.

Lemma run_scoped (w : World) : scoped false false (trace (fst (run w))) = true.
Proof.
  rewrite run_eq.
  destruct (create_error w) as [e|]; [reflexivity|].
  destruct (start_error w) as [e|]; [reflexivity|].
  cbn [fst trace app scoped allowed step_session step_serving negb andb].
  rewrite scoped_app, served_scoped, served_keeps_session, served_keeps_serving.
  destruct (transport_error w); reflexivity.
Qed.

(** A trace that keeps the discipline has the session open whenever the
    loop is serving. *)
Lemma scoped_prefix (pre post : list Event) :
  forall o s,
    scoped o s (pre ++ post) = true ->
    (s = true -> o = true) ->
    fold_left step_serving pre s = true -> fold_left step_session pre o = true.
Proof.
  induction pre as [|ev pre IH]; intros o s Hsc Hinv; cbn [fold_left].
  - exact Hinv.
  - cbn [app scoped] in Hsc. apply andb_true_iff in Hsc. destruct Hsc as [Hal Hsc].
    apply (IH _ _ Hsc).
    destruct ev, o, s; cbn in *; try reflexivity; try discriminate;
      try (intros; now apply Hinv).
Qed.

Lemma scoped_allowed_at (pre post : list Event) (ev : Event) (o s : bool) :
  scoped o s (pre ++ ev :: post) = true ->
  allowed (fold_left step_session pre o) (fold_left step_serving pre s) ev = true.
Proof.
  rewrite scoped_app. intros H. apply andb_true_iff in H. destruct H as [_ H].
  cbn [scoped] in H. apply andb_true_iff in H. apply H.
Qed.

(** C2: in every run, at every point of the trace, the loop is serving
    only with the session open; the loop begins with the session already
    open, the session is not closed while the loop serves, and a request
    is dispatched only inside both and is never answered with a closed
    session. *)
Theorem loop_runs_only_while_session_open (w : World) (pre post : list Event) :
  trace (fst (run w)) = (pre ++ post)%list ->
  (serving_after pre = true -> session_after pre = true) /\
  (forall rest, post = EvServeBegin :: rest ->
     session_after pre = true /\ serving_after pre = false) /\
  (forall rest, post = EvSessionClose :: rest -> serving_after pre = false) /\
  (forall req resp rest, post = EvDispatch req resp :: rest ->
     session_after pre = true /\ serving_after pre = true /\
     is_session_closed resp = false).
Proof.
  intros Ht. pose proof (run_scoped w) as Hsc. rewrite Ht in Hsc.
  unfold serving_after, session_after.
  split; [|split; [|split]].
  - apply (scoped_prefix pre post false false Hsc). discriminate.
  - intros rest ->. apply scoped_allowed_at in Hsc. cbn [allowed] in Hsc.
    apply andb_true_iff in Hsc. destruct Hsc as [Ho Hs].
    apply negb_true_iff in Hs. now split.
  - intros rest ->. apply scoped_allowed_at in Hsc. cbn [allowed] in Hsc.
    apply andb_true_iff in Hsc. destruct Hsc as [_ Hs].
    now apply negb_true_iff in Hs.
  - intros req resp rest ->. apply scoped_allowed_at in Hsc. cbn [allowed] in Hsc.
    apply andb_true_iff in Hsc. destruct Hsc as [Hsc Hc].
    apply andb_true_iff in Hsc. destruct Hsc as [Ho Hs].
    apply negb_true_iff in Hc. now repeat split.
Qed.

Lemma loop_runs_only_while_session_open_witness :
  trace (fst (run sample_world))
  = (firstn 5 (trace (fst (run sample_world)))
     ++ skipn 5 (trace (fst (run sample_world))))%list /\
  serving_after (firstn 5 (trace (fst (run sample_world)))) = true /\
  session_after (firstn 5 (trace (fst (run sample_world)))) = true.
Proof.
  split; [reflexivity|]. split; [reflexivity|].
  apply (proj1 (loop_runs_only_while_session_open sample_world
                  (firstn 5 (trace (fst (run sample_world))))
                  (skipn 5 (trace (fst (run sample_world))))
                  eq_refl)).
  reflexivity.
Defined.

(** ** Exit behaviour *)

Lemma not_in_served (mcp : FastMCP) (reqs : list Request) (ev : Event) :
  is_dispatch ev = false -> ~ In ev (served mcp reqs).
Proof.
  intros Hev Hin. apply in_served in Hin. congruence.
Qed.

(** C4: when session startup fails (creating the client or starting the
    server raises [e]), the run logs ["Error: "] followed by [str(e)] at
    level ERROR and exits with a non-zero status, and the loop never
    begins serving and dispatches nothing; when startup succeeds and the
    input stream closes gracefully, the run exits with status zero,
    having served. *)
Theorem exit_behaviour (w : World) :
  (forall e, startup_failure w = Some e ->
     snd (run w) <> 0%Z /\
     In (error_log e) (trace (fst (run w))) /\
     ~ In EvServeBegin (trace (fst (run w))) /\
     ~ In EvSessionOpen (trace (fst (run w))) /\
     (forall req resp, ~ In (EvDispatch req resp) (trace (fst (run w))))) /\
  (startup_failure w = None -> transport_error w = None ->
     snd (run w) = 0%Z /\
     In EvServeBegin (trace (fst (run w))) /\
     (forall msg, ~ In (EvLog ERROR msg) (trace (fst (run w))))).
Proof.
  unfold startup_failure. rewrite run_eq. split.
  - intros e He.
    destruct (create_error w) as [e'|].
    + injection He as ->. cbn. unfold error_log.
      repeat split; try discriminate; try tauto; intuition discriminate.
    + rewrite He. cbn. unfold error_log.
      repeat split; try discriminate; try tauto; intuition discriminate.
  - intros Hs Ht.
    destruct (create_error w) as [e'|]; [discriminate|].
    rewrite Hs, Ht. cbn [fst snd trace]. split; [reflexivity|]. split.
    + cbn. tauto.
    + intros msg Hin. cbn in Hin.
      repeat (destruct Hin as [Hin|Hin]; [discriminate|]).
      apply in_app_iff in Hin. destruct Hin as [Hin|Hin].
      * apply in_served in Hin. discriminate.
      * cbn in Hin. intuition discriminate.
Qed.

Lemma exit_behaviour_witness :
  snd (run unreachable_world) <> 0%Z /\ snd (run sample_world) = 0%Z.
Proof.
  split.
  - apply (proj1 (exit_behaviour unreachable_world)
             {| exc_type := "FileNotFoundError"; exc_str := "pyright" |} eq_refl).
  - apply (proj2 (exit_behaviour sample_world) eq_refl eq_refl).
Defined.

(** ** The working directory *)

Lemma filter_create_served (mcp : FastMCP) (reqs : list Request) :
  filter is_create (served mcp reqs) = [].
Proof. induction reqs as [|req reqs IH]; [reflexivity | exact IH]. Qed.

Lemma serve_one_keeps_globals (mcp : FastMCP) (req : Request) (p : Process) :
  globals (fst (serve_one mcp req p)) = globals p.
Proof. reflexivity. Qed.

(** C8: the module body binds [cwd] to the working directory of the
    launch, and in every run that one value is what the client is rooted
    at and what [get_relative_path] joins onto: the client is created at
    most once (exactly once when creation succeeds), for the language
    [python] and with root [cwd]; serving a request leaves the globals as
    they are, every dispatch goes to the tools of that one client, and
    the globals at the end of the run are those of the launch. *)
Theorem single_working_directory (w : World) :
  cwd (globals (launch w)) = launch_dir w /\
  globals (fst (run w)) = globals (launch w) /\
  (forall lang root, In (EvCreate lang root) (trace (fst (run w))) ->
     lang = "python" /\ root = cwd (globals (fst (run w))) /\
     forall p, get_relative_path (globals (fst (run w))) p = os_path_join root p) /\
  (length (filter is_create (trace (fst (run w)))) <= 1)%nat /\
  (create_error w = None ->
     filter is_create (trace (fst (run w))) = [EvCreate "python" (launch_dir w)]) /\
  (forall mcp req p, globals (fst (serve_one mcp req p)) = globals p) /\
  (forall req resp, In (EvDispatch req resp) (trace (fst (run w))) ->
     resp = dispatch true (built (created w (launch_dir w))) req /\
     repository_root_path (created w (launch_dir w)) = launch_dir w /\
     code_language (created w (launch_dir w)) = "python").
Proof.
  split; [reflexivity|].
  rewrite run_eq.
  destruct (create_error w) as [e|].
  { cbn. unfold error_log. repeat split; try lia; try discriminate;
      intuition discriminate. }
  destruct (start_error w) as [e|].
  { cbn [fst trace globals launch]. unfold error_log.
    split; [reflexivity|]. split; [|split; [|split; [|split]]].
    - intros lang root [Hin|[Hin|[Hin|[]]]]; try discriminate.
      inversion Hin; subst. repeat split.
    - cbn. lia.
    - reflexivity.
    - reflexivity.
    - intros req resp [Hin|[Hin|[Hin|[]]]]; discriminate. }
  cbn [fst trace globals launch].
  assert (Hf : filter is_create
                 ([EvCreate "python" (launch_dir w); EvLog INFO "LSP starting...";
                   EvSessionOpen; EvLog INFO "LSP started"; EvServeBegin]
                  ++ served (built (created w (launch_dir w))) (stdin_requests w)
                  ++ [EvServeEnd; EvSessionClose]
                  ++ match transport_error w with
                     | Some e => [error_log e]
                     | None => []
                     end)%list
               = [EvCreate "python" (launch_dir w)]).
  { rewrite !filter_app, filter_create_served.
    destruct (transport_error w); reflexivity. }
  split; [reflexivity|]. split; [|split; [|split; [|split]]].
  - intros lang root Hin.
    assert (Hin' : In (EvCreate lang root) [EvCreate "python" (launch_dir w)]).
    { rewrite <- Hf. apply filter_In. split; [exact Hin | reflexivity]. }
    destruct Hin' as [Heq|[]]. inversion Heq; subst. repeat split.
  - rewrite Hf. cbn. lia.
  - intros _. exact Hf.
  - reflexivity.
  - intros req resp Hin. repeat split.
    cbn [app] in Hin.
    repeat (destruct Hin as [Hin|Hin]; [discriminate|]).
    apply in_app_iff in Hin. destruct Hin as [Hin|Hin].
    + unfold served in Hin. apply in_map_iff in Hin.
      destruct Hin as [r [Heq _]]. now inversion Heq.
    + destruct (transport_error w); cbn in Hin; unfold error_log in Hin;
        intuition discriminate.
Qed.

Lemma single_working_directory_witness :
  filter is_create (trace (fst (run sample_world))) = [EvCreate "python" "/proj"].
Proof.
  apply (proj1 (proj2 (proj2 (proj2 (proj2 (single_working_directory sample_world)))))
           eq_refl).
Defined.

(** * Further properties of the code *)

(** ** The path normalizer, continued *)

Lemma append_inv_head (a b c : string) : a ++ b = a ++ c -> b = c.
Proof.
  induction a as [|x a IH]; cbn; intros H; [exact H|].
  apply IH. now inversion H.
Qed.

Lemma append_assoc (a b c : string) : (a ++ b) ++ c = a ++ b ++ c.
Proof. induction a as [|x a IH]; cbn; [reflexivity | now rewrite IH]. Qed.

Lemma startswith_app_self (a b : string) : PyStr.startswith a (a ++ b) = true.
Proof.
  induction a as [|x a IH]; [reflexivity|].
  cbn. now rewrite Ascii.eqb_refl, IH.
Qed.

Lemma length_app (a b : string) :
  String.length (a ++ b) = String.length a + String.length b.
Proof. induction a as [|x a IH]; cbn; [reflexivity | now rewrite IH]. Qed.

Lemma substring_all (s : string) : substring 0 (String.length s) s = s.
Proof. induction s as [|x s IH]; cbn; [reflexivity | now rewrite IH]. Qed.

Lemma substring_skip (a b : string) :
  substring (String.length a) (String.length b) (a ++ b) = b.
Proof.
  induction a as [|x a IH]; cbn; [apply substring_all | exact IH].
Qed.

Lemma endswith_app_self (a b : string) : PyStr.endswith b (a ++ b) = true.
Proof.
  unfold PyStr.endswith. rewrite length_app.
  replace (String.length a + String.length b - String.length b) with (String.length a) by lia.
  rewrite substring_skip, String.eqb_refl, andb_true_r.
  apply Nat.leb_le. lia.
Qed.

(** X1: with an absolute working directory, the normalizer returns an
    absolute path for every file path, relative or not. *)
Theorem normalized_path_is_absolute (g : Globals) (p : string) :
  os_path_isabs (cwd g) = true -> os_path_isabs (get_relative_path g p) = true.
Proof. intros Hcwd. unfold get_relative_path. now apply join_isabs. Qed.

Lemma normalized_path_is_absolute_witness :
  os_path_isabs (get_relative_path proj_globals "../lib/x.py") = true.
Proof.
  apply (normalized_path_is_absolute proj_globals "../lib/x.py"). reflexivity.
Defined.

(** X2: the normalizer never rewrites the path it is given: the file path
    is always a suffix of the result (nothing like [..] or a doubled
    separator is resolved), and for a relative file path the working
    directory is a prefix of the result, which is at most one separator
    longer than the two together. *)
Theorem normalized_path_keeps_path (g : Globals) (p : string) :
  PyStr.endswith p (get_relative_path g p) = true /\
  (os_path_isabs p = false ->
   PyStr.startswith (cwd g) (get_relative_path g p) = true /\
   String.length (cwd g) + String.length p <= String.length (get_relative_path g p)
   /\ String.length (get_relative_path g p)
      <= String.length (cwd g) + 1 + String.length p).
Proof.
  unfold get_relative_path, os_path_join, os_path_isabs.
  destruct (PyStr.startswith sep p) eqn:Hp.
  - split; [apply (endswith_app_self "" p) | discriminate].
  - destruct (String.eqb (cwd g) "" || PyStr.endswith sep (cwd g)).
    + split; [apply endswith_app_self|]. intros _.
      rewrite startswith_app_self, length_app. repeat split; lia.
    + split.
      * rewrite <- append_assoc. apply endswith_app_self.
      * intros _. rewrite startswith_app_self, !length_app. cbn. repeat split; lia.
Qed.

Lemma normalized_path_keeps_path_witness :
  PyStr.startswith (cwd proj_globals) (get_relative_path proj_globals "../x/./y") = true.
Proof.
  apply (proj2 (normalized_path_keeps_path proj_globals "../x/./y") eq_refl).
Defined.

(** X3: the normalizer keeps distinct relative paths apart: two different
    relative file paths never normalize to the same path. *)
Theorem normalized_relative_paths_distinct (g : Globals) (p q : string) :
  os_path_isabs p = false -> os_path_isabs q = false -> p <> q ->
  get_relative_path g p <> get_relative_path g q.
Proof.
  unfold get_relative_path, os_path_join, os_path_isabs.
  intros -> -> Hne Heq. apply Hne.
  destruct (String.eqb (cwd g) "" || PyStr.endswith sep (cwd g)).
  - now apply append_inv_head in Heq.
  - apply append_inv_head in Heq. now apply append_inv_head in Heq.
Qed.

Lemma normalized_relative_paths_distinct_witness :
  get_relative_path proj_globals "src/a.py" <> get_relative_path proj_globals "src/b.py".
Proof.
  apply (normalized_relative_paths_distinct proj_globals "src/a.py" "src/b.py");
    [reflexivity | reflexivity | discriminate].
Defined.

(** ** The run, continued *)

Lemma filter_served_none (f : Event -> bool) (mcp : FastMCP) (reqs : list Request) :
  (forall req resp, f (EvDispatch req resp) = false) ->
  filter f (served mcp reqs) = [].
Proof.
  intros Hf. induction reqs as [|req reqs IH]; [reflexivity|].
  cbn [served map filter]. rewrite Hf. exact IH.
Qed.

(** X4: the exit status tells whether anything failed: it is 0 when
    neither creating the client, nor starting the server, nor the
    transport failed, and 1 otherwise; the run logs at level ERROR exactly
    once when something failed and never otherwise; the record carries
    [str(e)] of the first failure and is the last event of the run. *)
Theorem exit_status_tells_failure (w : World) :
  snd (run w) = match failure w with
                | None => 0%Z
                | Some _ => 1%Z
                end /\
  filter is_error_log (trace (fst (run w)))
  = match failure w with
    | None => []
    | Some e => [error_log e]
    end /\
  (forall e, failure w = Some e ->
     exists pre, trace (fst (run w)) = (pre ++ [error_log e])%list).
Proof.
  unfold failure, startup_failure. rewrite run_eq.
  destruct (create_error w) as [e1|].
  { cbn. repeat split. intros e He. injection He as <-. now exists []. }
  destruct (start_error w) as [e2|].
  { cbn. repeat split. intros e He. injection He as <-.
    now exists [EvCreate "python" (launch_dir w); EvLog INFO "LSP starting..."]. }
  cbn [fst snd trace].
  split; [destruct (transport_error w); reflexivity|]. split.
  - cbn [app filter is_error_log]. rewrite !filter_app, filter_served_none by reflexivity.
    destruct (transport_error w); reflexivity.
  - intros e He. rewrite He.
    exists ([EvCreate "python" (launch_dir w); EvLog INFO "LSP starting...";
             EvSessionOpen; EvLog INFO "LSP started"; EvServeBegin]
            ++ served (built (created w (launch_dir w))) (stdin_requests w)
            ++ [EvServeEnd; EvSessionClose])%list.
    rewrite <- !app_assoc. reflexivity.
Qed.

Lemma exit_status_tells_failure_witness :
  exists pre,
    trace (fst (run broken_pipe_world))
    = (pre ++ [error_log {| exc_type := "BrokenPipeError"; exc_str := "stdout closed" |}])%list.
Proof.
  apply (proj2 (proj2 (exit_status_tells_failure broken_pipe_world))
           {| exc_type := "BrokenPipeError"; exc_str := "stdout closed" |} eq_refl).
Defined.
